(** * parquet-explorer: the document's query/paging protocol

    A shallow embedding of [src/parquetDocument.ts]: the statement rewrite
    ([formatSql]), the result cleaning ([cleanResults]), the two document
    operations ([runQuery], [fetchMore]) and the provider's message switch
    ([onMessage]), followed by the properties of the specification and by
    further properties of the code: the opening of a document ([create]),
    the listener of the webview ([receive]) and the rounding of bigints.

    Conventions of the embedding.
    - A JavaScript string is a [string]: a sequence of code units, here the
      code units below 256 (ASCII and Latin-1), on which [toLowerCase] and
      [trim] are the ECMAScript ones.
    - [limit] and [offset] are integer-valued numbers, kept as [Z]; a template
      literal renders the safe integers, below 2^53 in magnitude, in plain
      decimal ([isSafeInteger]).
    - A number that is a cell of a result set is an IEEE 754 binary64 value,
      [spec_float] of the standard library; a bigint is a [Z].
    - A row is a JavaScript object used as a map from column names to
      values: a [gmap string value]. A result set is an array of rows.
    - The embedded engine is external: it is an interface ([Database]), a
      state and a function from the state and a statement to an error or a
      result set. Its callbacks are run to completion, one operation at a
      time, and every call to the engine and every message posted to the
      webview is recorded in a trace. *)

From Stdlib Require Import ZArith Ascii Numbers.DecimalString Lia.
From Stdlib Require String DecimalPos DecimalZ.
From Stdlib Require Import Floats.SpecFloat.
From stdpp Require Import gmap strings list fin_maps.

#[local] Set Warnings "-register-all".

(** ** JavaScript strings *)

Module JsString.

(** The line feed of the template literals. *)
Definition nl : string := String "010"%char EmptyString.

(** [String.prototype.toLowerCase] on one code unit below 256: the
    letters A-Z, and the Latin-1 capitals U+00C0-U+00DE but the
    multiplication sign U+00D7, move 32 places up. *)
Definition lower_unit (c : ascii) : ascii :=
  let n := N_of_ascii c in
  if ((65 <=? n) && (n <=? 90))%N
     || ((192 <=? n) && (n <=? 222) && negb (n =? 215))%N
  then ascii_of_N (n + 32) else c.

Fixpoint toLowerCase (s : string) : string :=
  match s with
  | EmptyString => EmptyString
  | String c s' => String (lower_unit c) (toLowerCase s')
  end.

(** [s.startsWith(p)]. *)
Definition startsWith (s p : string) : bool := String.prefix p s.

(** [s.replace(pat, rep)] for a pattern that is a string of one
    character: a string pattern is replaced once, at its first
    occurrence ([rep] has no [$] pattern). *)
Fixpoint replace (s : string) (pat : ascii) (rep : string) : string :=
  match s with
  | EmptyString => EmptyString
  | String c s' =>
      if Ascii.eqb c pat then rep +:+ s' else String c (replace s' pat rep)
  end.

(** White space and line terminators of ECMAScript below 256: TAB, LF, VT,
    FF, CR, SP and NBSP. *)
Definition isWhiteSpace (c : ascii) : bool :=
  let n := N_of_ascii c in
  ((9 <=? n) && (n <=? 13) || (n =? 32) || (n =? 160))%N.

Fixpoint trimStart (s : string) : string :=
  match s with
  | EmptyString => EmptyString
  | String c s' => if isWhiteSpace c then trimStart s' else s
  end.



(** The number of occurrences of a character. *)
Fixpoint count (c : ascii) (s : string) : nat :=
  match s with
  | EmptyString => 0
  | String d s' => (if Ascii.eqb d c then 1 else 0) + count c s'
  end.

Definition includes (s : string) (c : ascii) : bool :=
  negb (Nat.eqb (count c s) 0).

(** [`${n}`] for a number that is a safe integer, below 2^53 in magnitude:
    its decimal digits, after a minus sign when it is negative. A larger
    number is printed by the code with the fewest digits that read back to
    it, and with an exponent from 1e21 on; those are outside this
    rendering, and a property that rests on the digits is stated for safe
    integers only. *)
Definition Number_toString (n : Z) : string :=
  NilZero.string_of_int (Z.to_int n).

End JsString.
Import JsString.

(** ** The statement rewrite *)

(** [ParquetDocument.formatSql]. *)
Definition formatSql (sql : string) (limit offset : Z) : string :=
  if startsWith (toLowerCase sql) "describe" then sql
  else "SELECT * FROM (" +:+ nl +:+ replace sql ";" "" +:+ nl
       +:+ ") LIMIT " +:+ Number_toString limit
       +:+ " OFFSET " +:+ Number_toString offset.

(** ** Result sets *)

(** The values the engine puts in a cell. [VArray] stands for the values
    whose [typeof] is "object" and that hold other values (lists). *)
Inductive value : Type :=
  | VNull
  | VBoolean (b : bool)
  | VNumber (x : spec_float)
  | VBigInt (n : Z)
  | VString (s : string)
  | VArray (elems : list value).

Definition typeof (v : value) : string :=
  match v with
  | VNull => "object"
  | VBoolean _ => "boolean"
  | VNumber _ => "number"
  | VBigInt _ => "bigint"
  | VString _ => "string"
  | VArray _ => "object"
  end.

(** [duckdb.RowData] and [duckdb.TableData]. *)
Abbreviation RowData := (gmap string value).
Abbreviation TableData := (list (gmap string value)).

(** [Number(value)] for a bigint: the binary64 value nearest to it, ties to
    even (53 bits of precision, exponents below 1024). *)
Definition Number (n : Z) : spec_float := binary_normalize 53 1024 n 0 false.

(** The number [x] is finite and its value is the integer [n]. *)
Definition number_is (x : spec_float) (n : Z) : Prop :=
  match x with
  | S754_zero _ => n = 0%Z
  | S754_finite s m e =>
      (cond_Zopp s (Zpos m) * 2 ^ Z.max e 0 = n * 2 ^ Z.max (- e) 0)%Z
  | _ => False
  end.

(** The body of the inner loop of [cleanResults], for one entry of
    [Object.entries(row)]: [typeof value == "bigint"] selects the bigints,
    and [row[key] = Number(value)] overwrites the cell. *)
Definition cleanCell (row : RowData) (entry : string * value) : RowData :=
  match entry.2 with
  | VBigInt n => <[entry.1 := VNumber (Number n)]> row
  | _ => row
  end.

(** The inner loop: over the entries the row had when the loop started. *)
Definition cleanRow (row : RowData) : RowData :=
  foldl cleanCell row (map_to_list row).

(** [ParquetDocument.cleanResults]: every row of the array is updated in
    place and the array itself is returned. *)
Definition cleanResults (results : TableData) : TableData :=
  cleanRow <$> results.

(** ** Messages, the engine and the trace *)

(** The error object of an engine callback: [err.message]. *)
Record Error : Type := { err_message : string }.

Inductive MessageType : Type := query | more.

(** [IMessage]: the optional fields are absent when [None]. *)
Record IMessage : Type := {
  type : MessageType;
  success : bool;
  message : option string;
  results : option TableData
}.

(** The database handle of a document: [db_exec db stmt] is what the engine
    hands to the callback of [db.all(stmt, callback)], an error or the rows,
    and the state of the handle afterwards. *)
Class Database (Db : Type) : Type :=
  db_exec : Db -> string -> (Error + TableData) * Db.

(** What a document operation does to the outside: statements given to the
    engine and messages posted to the webview. *)
Inductive event : Type :=
  | DbAll (stmt : string)
  | PostMessage (msg : IMessage).

(** A message received from the webview: [message.type], [message.sql],
    [message.limit] and [message.offset]. The kind is [None] when the field
    is absent or is not a string. *)
Record WebviewMessage : Type := {
  req_type : option string;
  req_sql : string;
  req_limit : Z;
  req_offset : Z
}.

Section Document.

Context {Db : Type} `{Database Db}.

(** A piece of code run against the handle: its trace and the handle it
    leaves. *)
Definition action : Type := Db -> list event * Db.

Definition skip : action := fun db => ([], db).

(** [this.db.all(stmt, callback)]. *)
Definition all (stmt : string) (callback : Error + TableData -> action)
  : action :=
  fun db =>
    let '(r, db1) := db_exec db stmt in
    let '(evs, db2) := callback r db1 in
    (DbAll stmt :: evs, db2).

(** [ParquetDocument.runQuery]. *)
Definition runQuery (sql : string) (limit : Z)
    (callback : IMessage -> action) : action :=
  all ("EXPLAIN" +:+ nl +:+ sql) (fun r =>
    match r with
    | inl err =>
        callback {| type := query; success := false;
                    message := Some (err_message err); results := None |}
    | inr _ =>
        all (formatSql sql limit 0) (fun r =>
          match r with
          | inl err =>
              callback {| type := query; success := false;
                          message := Some (err_message err);
                          results := None |}
          | inr res =>
              callback {| type := query; success := true;
                          message := None;
                          results := Some (cleanResults res) |}
          end)
    end).

(** [ParquetDocument.fetchMore]. *)
Definition fetchMore (sql : string) (limit offset : Z)
    (callback : IMessage -> action) : action :=
  all (formatSql sql limit offset) (fun r =>
    match r with
    | inl err =>
        callback {| type := more; success := false;
                    message := Some (err_message err); results := None |}
    | inr res =>
        callback {| type := more; success := true;
                    message := None; results := Some res |}
    end).

(** [ParquetDocumentProvider.postMessage]. *)
Definition postMessage (msg : IMessage) : action :=
  fun db => ([PostMessage msg], db).

(** [ParquetDocumentProvider.onMessage]: a switch with two cases and no
    default; a case is taken when the kind is strictly equal to its
    label. *)
Definition onMessage (e : WebviewMessage) : action :=
  if bool_decide (req_type e = Some "query") then
    runQuery (req_sql e) (req_limit e) (fun msg => postMessage msg)
  else if bool_decide (req_type e = Some "more") then
    fetchMore (req_sql e) (req_limit e) (req_offset e)
      (fun msg => postMessage msg)
  else skip.

End Document.

(** ** A fixed engine for the examples *)

Module Sample.

(** Two rows of the view, as the engine returns them. *)
Definition rows : TableData :=
  [ {[ "id" := VBigInt 1; "name" := VString "a" ]};
    {[ "id" := VBigInt 2; "name" := VNull ]} ].

(** One row with an integer above 2^53. *)
Definition large : TableData :=
  [ {[ "id" := VBigInt 9007199254740993 ]} ].

Definition error : Error :=
  {| err_message :=
       "Catalog Error: Table with name nonexistent does not exist!" |}.

(** A handle that counts the statements it has run. The engine rejects
    the explanation of a query on a table that does not exist and
    answers every other statement with [rows]. *)
Definition engine : Database nat :=
  fun db stmt =>
    if String.eqb stmt ("EXPLAIN" +:+ nl +:+ "SELECT * FROM nonexistent")
    then (inl error, S db)
    else (inr rows, S db).

End Sample.

(** ** The rest of the document and of the provider *)

(** [vscode.Uri], of which the document reads [fsPath]. *)
Record Uri : Type := { fsPath : string }.

(** The statement the constructor of [ParquetDocument] gives to
    [this.db.exec]. *)
Definition createViewSql (uri : Uri) : string :=
  "CREATE VIEW data AS SELECT * FROM read_parquet('" +:+ fsPath uri +:+ "');".

(** [ParquetDocument.create]: the resource the document is made over, the
    parsed backup when [backupId] is a string ([Uri.parse] is the host's),
    and the statement its constructor runs. *)
Definition create (parse : string -> Uri) (uri : Uri)
    (backupId : option string) : Uri * string :=
  let trueURI := match backupId with Some id => parse id | None => uri end in
  (trueURI, createViewSql trueURI).

(** The case of the switch of [onMessage] a message takes, if any. *)
Definition kind (e : WebviewMessage) : option MessageType :=
  if bool_decide (req_type e = Some "query") then Some query
  else if bool_decide (req_type e = Some "more") then Some more
  else None.

Section Provider.

Context {Db : Type} `{Database Db}.

(** One piece of code after another on the same handle. *)
Definition andThen (a b : @action Db) : @action Db :=
  fun db =>
    let '(evs1, db1) := a db in
    let '(evs2, db2) := b db1 in
    (evs1 ++ evs2, db2).

(** The listener [resolveCustomEditor] gives to
    [webview.onDidReceiveMessage], [e => this.onMessage(document,
    webviewPanel, e)], over the messages the webview sends, in the order of
    their arrival and each one to its end. *)
Fixpoint receive (es : list WebviewMessage) : @action Db :=
  match es with
  | [] => skip
  | e :: es' => andThen (onMessage e) (receive es')
  end.

End Provider.

(** A second engine: its parser rejects a bounded statement in which a
    semicolon is left, and every other statement is answered with the
    sample rows. *)
Module Strict.

Definition error : Error :=
  {| err_message := "Parser Error: syntax error at or near ;" |}.

Definition engine : Database nat :=
  fun db stmt =>
    if startsWith stmt "SELECT * FROM (" && includes stmt ";"
    then (inl error, S db)
    else (inr Sample.rows, S db).

End Strict.

(** ** The vocabulary of the properties *)

(** What the loop of [cleanResults] makes of one cell. *)
Definition cleanValue (v : value) : value :=
  match v with
  | VBigInt n => VNumber (Number n)
  | _ => v
  end.

(** A result set delivers a bigint when one of its cells is one. *)
Definition has_bigint (t : TableData) : Prop :=
  exists (row : RowData) key n, row ∈ t /\ row !! key = Some (VBigInt n).

(** The messages posted in a trace, and the result sets they deliver. *)
Definition posted (evs : list event) : list IMessage :=
  omap (fun ev => match ev with PostMessage msg => Some msg | _ => None end) evs.

Definition delivered (evs : list event) : list TableData :=
  omap results (posted evs).

(** [Number.isSafeInteger] on an integer: every integer of this range is a
    number, and a template literal prints it digit by digit. *)
Definition isSafeInteger (n : Z) : Prop := (Z.abs n < 2 ^ 53)%Z.

(** The statements given to the engine in a trace. *)
Definition statements (evs : list event) : list string :=
  omap (fun ev => match ev with DbAll stmt => Some stmt | _ => None end) evs.

(** A number that is neither an infinity nor a NaN. *)
Definition number_finite (x : spec_float) : bool :=
  match x with
  | S754_zero _ | S754_finite _ _ _ => true
  | _ => false
  end.

(** Where the integer [M] lies between two multiples of [P]: the record of
    a right shift holds the quotient, and its two bits tell whether the
    remainder is zero, below the half of [P], the half, or above. *)
Definition located (M P : Z) (mrs : shr_record) : Prop :=
  (0 <= shr_m mrs)%Z /\
  exists rem : Z,
    (M = shr_m mrs * P + rem)%Z /\ (0 <= rem < P)%Z /\
    match shr_r mrs, shr_s mrs with
    | false, false => rem = 0%Z
    | false, true => (0 < 2 * rem < P)%Z
    | true, false => (2 * rem = P)%Z
    | true, true => (P < 2 * rem)%Z
    end.

(** The invariant of [IMessage]: [results] and no [message] on success,
    [message] and no [results] on failure. *)
Definition well_formed (msg : IMessage) : Prop :=
  if success msg
  then is_Some (results msg) /\ message msg = None
  else is_Some (message msg) /\ results msg = None.

Definition failed (t : MessageType) (err : Error) : IMessage :=
  {| type := t; success := false;
     message := Some (err_message err); results := None |}.

Definition succeeded (t : MessageType) (res : TableData) : IMessage :=
  {| type := t; success := true; message := None; results := Some res |}.

(** * Examples *)

Example formatSql_ex_select :
  formatSql "SELECT * FROM data;" 10 0 =
  "SELECT * FROM (" +:+ nl +:+ "SELECT * FROM data" +:+ nl +:+ ") LIMIT 10 OFFSET 0".
Proof. reflexivity. Qed.

Example formatSql_ex_describe : formatSql "DESCRIBE data" 10 0 = "DESCRIBE data".
Proof. reflexivity. Qed.

(** A query on the view: validated, bounded, cleaned. *)
Example runQuery_ex_select :
  @runQuery nat Sample.engine "SELECT * FROM data;" 10 postMessage 0 =
    ([DbAll ("EXPLAIN" +:+ nl +:+ "SELECT * FROM data;");
      DbAll ("SELECT * FROM (" +:+ nl +:+ "SELECT * FROM data" +:+ nl
               +:+ ") LIMIT 10 OFFSET 0");
      PostMessage (succeeded query (cleanResults Sample.rows))], 2).
Proof. reflexivity. Qed.

(** A describe statement reaches the engine as it was written. *)
Example runQuery_ex_describe :
  (@runQuery nat Sample.engine "DESCRIBE data" 10 postMessage 0).1 =
    [DbAll ("EXPLAIN" +:+ nl +:+ "DESCRIBE data");
     DbAll "DESCRIBE data";
     PostMessage (succeeded query (cleanResults Sample.rows))].
Proof. reflexivity. Qed.

(** The second page of five rows. *)
Example fetchMore_ex_page :
  head (@fetchMore nat Sample.engine "SELECT * FROM data" 5 5 postMessage 0).1 =
    Some (DbAll ("SELECT * FROM (" +:+ nl +:+ "SELECT * FROM data" +:+ nl
                   +:+ ") LIMIT 5 OFFSET 5")).
Proof. reflexivity. Qed.

(** The switch of the provider takes the two kinds to the two operations. *)
Example onMessage_ex_query :
  @onMessage nat Sample.engine
    {| req_type := Some "query"; req_sql := "SELECT * FROM data";
       req_limit := 10; req_offset := 0 |} 0 =
  @runQuery nat Sample.engine "SELECT * FROM data" 10 postMessage 0.
Proof. reflexivity. Qed.

Example onMessage_ex_more :
  @onMessage nat Sample.engine
    {| req_type := Some "more"; req_sql := "SELECT * FROM data";
       req_limit := 10; req_offset := 20 |} 0 =
  @fetchMore nat Sample.engine "SELECT * FROM data" 10 20 postMessage 0.
Proof. reflexivity. Qed.

(** The cleaning of the sample rows, cell by cell. *)
Example cleanResults_ex :
  cleanResults Sample.rows =
    [ {[ "id" := VNumber (S754_finite false 4503599627370496 (-52));
         "name" := VString "a" ]};
      {[ "id" := VNumber (S754_finite false 4503599627370496 (-51));
         "name" := VNull ]} ].
Proof. reflexivity. Qed.

(** * Properties *)

(** ** Strings *)

Section StringFacts.

Lemma append_cons c s t : String c s +:+ t = String c (s +:+ t).
Proof. reflexivity. Qed.

Lemma append_empty_l t : "" +:+ t = t.
Proof. reflexivity. Qed.

Lemma length_append s t :
  String.length (s +:+ t) = String.length s + String.length t.
Proof.
  induction s as [|c s IH]; [reflexivity|].
  rewrite append_cons. simpl. now rewrite IH.
Qed.


Lemma count_append c s t : count c (s +:+ t) = count c s + count c t.
Proof.
  induction s as [|d s IH]; [reflexivity|].
  rewrite append_cons. cbn [count]. rewrite IH. lia.
Qed.

(** The one replacement removes one occurrence, the first. *)
Lemma count_replace s c : count c (replace s c "") = pred (count c s).
Proof.
  induction s as [|d s IH]; simpl; [reflexivity|].
  destruct (Ascii.eqb d c) eqn:E.
  - now rewrite append_empty_l.
  - simpl. now rewrite E.
Qed.


Lemma startsWith_cons c s a p :
  startsWith (String c s) (String a p) = true -> c = a.
Proof.
  unfold startsWith. cbn [String.prefix].
  destruct (ascii_dec a c); [auto | discriminate].
Qed.





Lemma trimStart_length s : String.length (trimStart s) <= String.length s.
Proof.
  induction s as [|c s IH]; simpl; [lia|].
  destruct (isWhiteSpace c); simpl; lia.
Qed.

(** A string that [trimStart] leaves alone does not start with white
    space. *)
Lemma trimStart_fixed_inv c s :
  trimStart (String c s) = String c s -> isWhiteSpace c = false.
Proof.
  simpl. destruct (isWhiteSpace c); [|reflexivity].
  intros E. pose proof (trimStart_length s) as L.
  rewrite E in L. simpl in L. lia.
Qed.

End StringFacts.

(** ** The statement rewrite *)

Section FormatSqlFacts.

Variables (sql : string) (limit offset : Z).

Lemma formatSql_describe :
  startsWith (toLowerCase sql) "describe" = true ->
  formatSql sql limit offset = sql.
Proof. unfold formatSql. now intros ->. Qed.

Lemma formatSql_wrap :
  startsWith (toLowerCase sql) "describe" = false ->
  formatSql sql limit offset =
  "SELECT * FROM (" +:+ nl +:+ replace sql ";" "" +:+ nl
    +:+ ") LIMIT " +:+ Number_toString limit
    +:+ " OFFSET " +:+ Number_toString offset.
Proof. unfold formatSql. now intros ->. Qed.



(** The bounded statement is never the statement of the validation. *)
Lemma formatSql_neq_explain :
  formatSql sql limit offset <> "EXPLAIN" +:+ nl +:+ sql.
Proof.
  unfold formatSql.
  destruct (startsWith (toLowerCase sql) "describe"); intros E.
  - apply (f_equal String.length) in E.
    rewrite !length_append in E. cbn [String.length nl] in E. lia.
  - rewrite !append_cons in E. discriminate E.
Qed.

End FormatSqlFacts.

(** ** Result cleaning *)

Section CleanFacts.

Lemma typeof_bigint v : typeof v = "bigint" <-> exists n, v = VBigInt n.
Proof.
  split; [|now intros [n ->]].
  destruct v; try discriminate. eauto.
Qed.

Lemma cleanValue_not_bigint v : typeof (cleanValue v) <> "bigint".
Proof. destruct v; discriminate. Qed.

Lemma cleanValue_other v : typeof v <> "bigint" -> cleanValue v = v.
Proof. destruct v; try reflexivity. now intros []. Qed.

(** The loop over a list of entries with distinct keys, started from any
    object. *)
Lemma foldl_cleanCell_lookup (l : list (string * value)) (m : RowData) k :
  NoDup l.*1 ->
  foldl cleanCell m l !! k =
    match (list_to_map l : RowData) !! k with
    | Some (VBigInt n) => Some (VNumber (Number n))
    | _ => m !! k
    end.
Proof.
  revert m. induction l as [|[k' v'] l IH]; intros m Hnd.
  - now rewrite list_to_map_nil, lookup_empty.
  - apply NoDup_cons in Hnd as [Hk' Hnd].
    rewrite list_to_map_cons. cbn [foldl].
    rewrite (IH _ Hnd). destruct (decide (k' = k)) as [->|Hne].
    + rewrite lookup_insert_eq.
      rewrite (not_elem_of_list_to_map_1 (M:=gmap string) l k Hk').
      unfold cleanCell; cbn [fst snd].
      destruct v'; try reflexivity. now rewrite lookup_insert_eq.
    + rewrite (lookup_insert_ne _ k' k) by assumption.
      assert (cleanCell m (k', v') !! k = m !! k) as ->; [|reflexivity].
      unfold cleanCell; cbn [fst snd].
      destruct v'; try reflexivity. now rewrite lookup_insert_ne.
Qed.

(** The loop is the cell-wise conversion of the row. *)
Lemma cleanRow_lookup (row : RowData) k :
  cleanRow row !! k = cleanValue <$> row !! k.
Proof.
  unfold cleanRow.
  rewrite foldl_cleanCell_lookup by apply NoDup_fst_map_to_list.
  rewrite list_to_map_to_list.
  destruct (row !! k) as [v|]; [|reflexivity]. now destruct v.
Qed.

Lemma cleanRow_fmap (row : RowData) : cleanRow row = cleanValue <$> row.
Proof. apply map_eq; intros k. now rewrite cleanRow_lookup, lookup_fmap. Qed.

Lemma cleanResults_lookup (results : TableData) i :
  cleanResults results !! i = cleanRow <$> results !! i.
Proof. apply list_lookup_fmap. Qed.


(** A cleaned result set delivers no bigint. *)
Lemma cleanResults_no_bigint (results : TableData) :
  ~ has_bigint (cleanResults results).
Proof.
  intros (row & k & n & Hin & Hk).
  apply list_elem_of_fmap in Hin as (row0 & -> & _).
  rewrite cleanRow_lookup in Hk.
  destruct (row0 !! k) as [v|]; [|discriminate].
  injection Hk as Hk. now destruct v.
Qed.

End CleanFacts.

(** ** The conversion of a bigint to a number *)

Section NumberFacts.

Local Open Scope Z_scope.

Lemma digits2_pos_lower m : 2 ^ (Zpos (digits2_pos m) - 1) <= Zpos m.
Proof.
  induction m as [m IH|m IH|]; cbn [digits2_pos]; [| |easy].
  all: rewrite Pos2Z.inj_succ;
    replace (Z.succ (Z.pos (digits2_pos m)) - 1)
      with (Z.succ (Z.pos (digits2_pos m) - 1)) by lia;
    rewrite Z.pow_succ_r by lia; lia.
Qed.

Lemma digits2_pos_le_53 m : Zpos m < 2 ^ 53 -> Zpos (digits2_pos m) <= 53.
Proof.
  intros Hm. pose proof (digits2_pos_lower m) as Hl.
  destruct (Z_le_gt_dec (Zpos (digits2_pos m)) 53) as [|Hgt]; [assumption|].
  assert (2 ^ 53 <= 2 ^ (Zpos (digits2_pos m) - 1))
    by (apply Z.pow_le_mono_r; lia).
  lia.
Qed.

Lemma iter_xO_value m k : Zpos (Pos.iter xO m k) = Zpos m * 2 ^ Zpos k.
Proof.
  induction k as [|k IH] using Pos.peano_ind.
  - cbn [Pos.iter]. lia.
  - rewrite Pos.iter_succ, Pos2Z.inj_succ, Z.pow_succ_r by lia.
    rewrite Pos2Z.inj_xO, IH. lia.
Qed.

Lemma iter_xO_digits m k :
  digits2_pos (Pos.iter xO m k) = (digits2_pos m + k)%positive.
Proof.
  induction k as [|k IH] using Pos.peano_ind.
  - cbn [Pos.iter digits2_pos]. lia.
  - rewrite Pos.iter_succ. cbn [digits2_pos]. rewrite IH. lia.
Qed.

(** A mantissa of 53 bits with an exponent in range is not rounded. *)
Lemma binary_round_aux_canonical s m e :
  Zpos (digits2_pos m) = 53 -> -1074 <= e <= 971 ->
  binary_round_aux 53 1024 s (Zpos m) e loc_Exact = S754_finite s m e.
Proof.
  intros Hd He.
  assert (Hshift : fexp 53 1024 (Zdigits2 (Zpos m) + e) - e = 0).
  { cbn [Zdigits2]. rewrite Hd. unfold fexp, emin. lia. }
  unfold binary_round_aux, shr_fexp.
  cbn [shr_record_of_loc]. rewrite Hshift.
  cbn [shr shr_m loc_of_shr_record round_nearest_even shr_record_of_loc].
  rewrite Hshift. cbn [shr shr_m].
  destruct (Z.leb_spec e (1024 - 53)); [reflexivity | lia].
Qed.

(** Below 2^53 the mantissa is only aligned. *)
Lemma binary_round_below_2_53 s m :
  Zpos m < 2 ^ 53 ->
  number_is (binary_round 53 1024 s m 0) (cond_Zopp s (Zpos m)).
Proof.
  intros Hm. apply digits2_pos_le_53 in Hm.
  unfold binary_round, shl_align.
  assert (Hf : fexp 53 1024 (Zpos (digits2_pos m) + 0)
               = Zpos (digits2_pos m) - 53)
    by (unfold fexp, emin; lia).
  rewrite Hf.
  destruct (Zpos (digits2_pos m) - 53 - 0) as [|k|k] eqn:Hk; [|lia|].
  - rewrite binary_round_aux_canonical by lia.
    cbn [number_is]. rewrite !Z.max_r by lia. lia.
  - rewrite binary_round_aux_canonical.
    + cbn [number_is].
      rewrite Z.max_r, Z.max_l by lia.
      replace (- (Zpos (digits2_pos m) - 53)) with (Zpos k) by lia.
      rewrite iter_xO_value. destruct s; cbn [cond_Zopp]; lia.
    + rewrite iter_xO_digits. lia.
    + lia.
Qed.

(** Up to 2^53 in magnitude, a bigint and its number are equal in value. *)
Lemma Number_exact n : Z.abs n <= 2 ^ 53 -> number_is (Number n) n.
Proof.
  intros Hn.
  destruct (Z.eq_dec n (2 ^ 53)) as [->|Hp]; [reflexivity|].
  destruct (Z.eq_dec n (- 2 ^ 53)) as [->|Hq]; [reflexivity|].
  destruct n as [|m|m]; [reflexivity| |].
  - apply (binary_round_below_2_53 false). lia.
  - apply (binary_round_below_2_53 true). lia.
Qed.

End NumberFacts.

(** ** The document operations *)

Section DocumentFacts.

Context {Db : Type} `{Database Db}.

Lemma all_unfold stmt callback (db : Db) :
  all stmt callback db =
    (DbAll stmt :: (callback (db_exec db stmt).1 (db_exec db stmt).2).1,
     (callback (db_exec db stmt).1 (db_exec db stmt).2).2).
Proof.
  unfold all. destruct (db_exec db stmt) as [r db1]. cbn [fst snd].
  now destruct (callback r db1).
Qed.

(** The three ways [runQuery] can go, for any callback. *)
Lemma runQuery_validation_error sql limit callback {db db1 : Db} {err} :
  db_exec db ("EXPLAIN" +:+ nl +:+ sql) = (inl err, db1) ->
  runQuery sql limit callback db =
    (DbAll ("EXPLAIN" +:+ nl +:+ sql) :: (callback (failed query err) db1).1,
     (callback (failed query err) db1).2).
Proof. intros E. unfold runQuery. now rewrite all_unfold, E. Qed.

Lemma runQuery_execution_error sql limit callback {db db1 db2 : Db} {r err} :
  db_exec db ("EXPLAIN" +:+ nl +:+ sql) = (inr r, db1) ->
  db_exec db1 (formatSql sql limit 0) = (inl err, db2) ->
  runQuery sql limit callback db =
    (DbAll ("EXPLAIN" +:+ nl +:+ sql) :: DbAll (formatSql sql limit 0)
       :: (callback (failed query err) db2).1,
     (callback (failed query err) db2).2).
Proof.
  intros E1 E2. unfold runQuery.
  now rewrite all_unfold, E1; cbn [fst snd]; rewrite all_unfold, E2.
Qed.

Lemma runQuery_success sql limit callback {db db1 db2 : Db} {r res} :
  db_exec db ("EXPLAIN" +:+ nl +:+ sql) = (inr r, db1) ->
  db_exec db1 (formatSql sql limit 0) = (inr res, db2) ->
  runQuery sql limit callback db =
    (DbAll ("EXPLAIN" +:+ nl +:+ sql) :: DbAll (formatSql sql limit 0)
       :: (callback (succeeded query (cleanResults res)) db2).1,
     (callback (succeeded query (cleanResults res)) db2).2).
Proof.
  intros E1 E2. unfold runQuery.
  now rewrite all_unfold, E1; cbn [fst snd]; rewrite all_unfold, E2.
Qed.

(** The two ways [fetchMore] can go. *)
Lemma fetchMore_error sql limit offset callback {db db1 : Db} {err} :
  db_exec db (formatSql sql limit offset) = (inl err, db1) ->
  fetchMore sql limit offset callback db =
    (DbAll (formatSql sql limit offset) :: (callback (failed more err) db1).1,
     (callback (failed more err) db1).2).
Proof. intros E. unfold fetchMore. now rewrite all_unfold, E. Qed.

Lemma fetchMore_success sql limit offset callback {db db1 : Db} {res} :
  db_exec db (formatSql sql limit offset) = (inr res, db1) ->
  fetchMore sql limit offset callback db =
    (DbAll (formatSql sql limit offset) :: (callback (succeeded more res) db1).1,
     (callback (succeeded more res) db1).2).
Proof. intros E. unfold fetchMore. now rewrite all_unfold, E. Qed.

(** Every operation posts one message. *)
Lemma runQuery_posts sql limit (db : Db) :
  exists msg, posted (runQuery sql limit postMessage db).1 = [msg] /\
    type msg = query /\ well_formed msg /\
    forall res, results msg = Some res -> ~ has_bigint res.
Proof.
  destruct (db_exec db ("EXPLAIN" +:+ nl +:+ sql)) as [[err|r] db1] eqn:E1.
  - rewrite (runQuery_validation_error _ _ _ E1).
    exists (failed query err). repeat split; eauto; discriminate.
  - destruct (db_exec db1 (formatSql sql limit 0)) as [[err|res] db2] eqn:E2.
    + rewrite (runQuery_execution_error _ _ _ E1 E2).
      exists (failed query err). repeat split; eauto; discriminate.
    + rewrite (runQuery_success _ _ _ E1 E2).
      exists (succeeded query (cleanResults res)).
      repeat split; eauto.
      intros ? [= <-]. apply cleanResults_no_bigint.
Qed.

Lemma fetchMore_posts sql limit offset (db : Db) :
  exists msg, posted (fetchMore sql limit offset postMessage db).1 = [msg] /\
    type msg = more /\ well_formed msg.
Proof.
  destruct (db_exec db (formatSql sql limit offset)) as [[err|res] db1] eqn:E.
  - rewrite (fetchMore_error _ _ _ _ E).
    exists (failed more err). repeat split; eauto.
  - rewrite (fetchMore_success _ _ _ _ E).
    exists (succeeded more res). repeat split; eauto.
Qed.

(** A page fetched at offset 0 right after a successful query, from an
    engine that answers the bounded statement as before, is the result
    set of the query before its cleaning. *)
Lemma first_page_before_cleaning sql limit (db db1 db2 db3 : Db) r res :
  db_exec db ("EXPLAIN" +:+ nl +:+ sql) = (inr r, db1) ->
  db_exec db1 (formatSql sql limit 0) = (inr res, db2) ->
  db_exec db2 (formatSql sql limit 0) = (inr res, db3) ->
  delivered (runQuery sql limit postMessage db).1 = [cleanResults res] /\
  (runQuery sql limit postMessage db).2 = db2 /\
  delivered (fetchMore sql limit 0 postMessage db2).1 = [res].
Proof.
  intros E1 E2 E3.
  rewrite (runQuery_success _ _ _ E1 E2), (fetchMore_success _ _ _ _ E3).
  repeat split.
Qed.

End DocumentFacts.

(** * The claims of the specification *)

(** C1. The first semicolon of a statement that is not a describe one is
    removed and every later one stays in the wrapped text: in
    [select 'a;b' as s;] the semicolon of the literal goes and the
    semicolon that ends the statement is still inside the parentheses. *)
Theorem formatSql_later_semicolons_stay :
  startsWith (toLowerCase "select 'a;b' as s;") "describe" = false /\
  formatSql "select 'a;b' as s;" 10 0 =
    "SELECT * FROM (" +:+ nl +:+ "select 'ab' as s;" +:+ nl
      +:+ ") LIMIT 10 OFFSET 0" /\
  includes (replace "select 'a;b' as s;" ";" "") ";" = true.
Proof. repeat split. Qed.




(** C10. The describe test is a prefix test on the lowered text, with no
    word boundary: whatever follows the eight characters, the statement is
    returned as it is, and what is returned does not begin with the
    wrapper. *)
Theorem describe_prefix_returned_verbatim sql limit offset :
  startsWith (toLowerCase sql) "describe" = true ->
  formatSql sql limit offset = sql /\
  startsWith (formatSql sql limit offset) "SELECT * FROM (" = false.
Proof.
  intros Hs. rewrite (formatSql_describe sql limit offset Hs).
  split; [reflexivity|].
  destruct sql as [|c s]; [reflexivity|].
  cbn [toLowerCase] in Hs. apply startsWith_cons in Hs.
  unfold startsWith. cbn [String.prefix].
  destruct (ascii_dec "S" c) as [<-|]; [|reflexivity].
  vm_compute in Hs. discriminate Hs.
Qed.

Lemma describe_prefix_returned_verbatim_witness :
  startsWith (toLowerCase "described x") "describe" = true /\
  formatSql "described x" 10 0 = "described x" /\
  startsWith (formatSql "described x" 10 0) "SELECT * FROM (" = false.
Proof.
  split; [reflexivity|].
  apply (describe_prefix_returned_verbatim "described x" 10 0).
  reflexivity.
Defined.

(** C2. A successful [more] message carries the rows as the engine gave
    them: [fetchMore] does not clean them, and a bigint cell reaches the
    webview. *)
Theorem fetchMore_delivers_bigint_cells :
  @fetchMore nat Sample.engine "SELECT * FROM data" 10 0 postMessage 0 =
    ([DbAll (formatSql "SELECT * FROM data" 10 0);
      PostMessage (succeeded more Sample.rows)], 1) /\
  has_bigint Sample.rows.
Proof.
  split; [reflexivity|].
  exists {[ "id" := VBigInt 1; "name" := VString "a" ]}, "id", 1%Z.
  split; [apply list_elem_of_here | reflexivity].
Qed.

(** C4. When the engine rejects the explanation, [runQuery] calls its
    callback once, with a failed [query] message that carries the text of
    the error, and does nothing else: with the provider's callback the trace
    is the explanation and that one message, and the bounded statement is
    not in it. *)
Theorem runQuery_stops_at_failed_validation
    {Db : Type} `{Database Db} (db db1 : Db) sql limit err :
  db_exec db ("EXPLAIN" +:+ nl +:+ sql) = (inl err, db1) ->
  (forall callback,
     runQuery sql limit callback db =
       (DbAll ("EXPLAIN" +:+ nl +:+ sql)
          :: (callback (failed query err) db1).1,
        (callback (failed query err) db1).2)) /\
  runQuery sql limit postMessage db =
    ([DbAll ("EXPLAIN" +:+ nl +:+ sql);
      PostMessage {| type := query; success := false;
                     message := Some (err_message err);
                     results := None |}], db1) /\
  DbAll (formatSql sql limit 0) ∉ (runQuery sql limit postMessage db).1.
Proof.
  intros E. split; [|split].
  - intros callback. apply (runQuery_validation_error _ _ _ E).
  - now rewrite (runQuery_validation_error _ _ _ E).
  - rewrite (runQuery_validation_error _ _ _ E). cbn [fst postMessage].
    intros Hin. apply elem_of_cons in Hin as [Heq|Hin].
    + injection Heq as Heq. now apply formatSql_neq_explain in Heq.
    + apply elem_of_cons in Hin as [Heq|Hin]; [discriminate Heq|].
      now apply elem_of_nil in Hin.
Qed.

Lemma runQuery_stops_at_failed_validation_witness :
  Sample.engine 0 ("EXPLAIN" +:+ nl +:+ "SELECT * FROM nonexistent")
    = (inl Sample.error, 1) /\
  @runQuery nat Sample.engine "SELECT * FROM nonexistent" 10 postMessage 0 =
    ([DbAll ("EXPLAIN" +:+ nl +:+ "SELECT * FROM nonexistent");
      PostMessage (failed query Sample.error)], 1) /\
  DbAll (formatSql "SELECT * FROM nonexistent" 10 0)
    ∉ (@runQuery nat Sample.engine "SELECT * FROM nonexistent" 10
         postMessage 0).1.
Proof.
  split; [reflexivity|].
  apply (@runQuery_stops_at_failed_validation nat Sample.engine 0 1
           "SELECT * FROM nonexistent" 10 Sample.error).
  reflexivity.
Defined.

(** C5. After a successful query, the page fetched at offset 0 with the
    same statement and limit is not the result set of the query: the query
    delivered numbers where the page delivers bigints. *)
Theorem fetchMore_first_page_differs :
  delivered (@runQuery nat Sample.engine "SELECT * FROM data" 10 postMessage 0).1
    = [cleanResults Sample.rows] /\
  (@runQuery nat Sample.engine "SELECT * FROM data" 10 postMessage 0).2 = 2 /\
  delivered (@fetchMore nat Sample.engine "SELECT * FROM data" 10 0 postMessage 2).1
    = [Sample.rows] /\
  cleanResults Sample.rows <> Sample.rows.
Proof.
  repeat split. intros E.
  apply (cleanResults_no_bigint Sample.rows). rewrite E.
  exists {[ "id" := VBigInt 1; "name" := VString "a" ]}, "id", 1%Z.
  split; [apply list_elem_of_here | reflexivity].
Qed.

(** C6, as the specification states it, fails: the number that replaces
    2^53 + 1 is 2^53. *)
Lemma cleanResults_rounds_above_2_53 :
  Sample.large !! 0 ≫= (.!! "id") = Some (VBigInt 9007199254740993) /\
  cleanResults Sample.large !! 0 ≫= (.!! "id")
    = Some (VNumber (S754_finite false 4503599627370496 1)) /\
  ~ number_is (S754_finite false 4503599627370496 1) 9007199254740993.
Proof. repeat split. intros E; vm_compute in E; discriminate E. Qed.

(** C6, amended. In every result set, row and column, [cleanResults]
    replaces a bigint cell by the number [Number(value)], which is equal in
    value to the bigint whenever the bigint is at most 2^53 in magnitude, and
    leaves every other cell as it is. *)
Theorem cleanResults_converts_bigint_cells
    (results : TableData) (i : nat) (row : RowData) (key : string) (v : value) :
  results !! i = Some row ->
  row !! key = Some v ->
  exists row' : RowData,
    cleanResults results !! i = Some row' /\
    match v with
    | VBigInt n =>
        row' !! key = Some (VNumber (Number n)) /\
        ((Z.abs n <= 2 ^ 53)%Z -> number_is (Number n) n)
    | _ => row' !! key = Some v
    end.
Proof.
  intros Hi Hk. exists (cleanRow row). split.
  - now rewrite cleanResults_lookup, Hi.
  - rewrite cleanRow_lookup, Hk.
    destruct v; try reflexivity. split; [reflexivity | apply Number_exact].
Qed.

Lemma cleanResults_converts_bigint_cells_witness :
  exists row' : RowData,
    cleanResults Sample.rows !! 1 = Some row' /\
    row' !! "id" = Some (VNumber (Number 2)) /\
    ((Z.abs 2 <= 2 ^ 53)%Z -> number_is (Number 2) 2).
Proof.
  apply (cleanResults_converts_bigint_cells Sample.rows 1
           {[ "id" := VBigInt 2; "name" := VNull ]} "id" (VBigInt 2));
    reflexivity.
Defined.

(** C7. Every message that [runQuery] or [fetchMore] hands to the callback
    has [results] and no [message] when [success] is true, and [message] and
    no [results] when it is false. *)
Theorem response_messages_well_formed
    {Db : Type} `{Database Db} (db : Db) sql limit offset :
  Forall well_formed (posted (runQuery sql limit postMessage db).1) /\
  Forall well_formed (posted (fetchMore sql limit offset postMessage db).1).
Proof.
  split.
  - destruct (runQuery_posts sql limit db) as (msg & -> & _ & Hwf & _).
    now repeat constructor.
  - destruct (fetchMore_posts sql limit offset db) as (msg & -> & _ & Hwf).
    now repeat constructor.
Qed.

(** C8. A message whose kind is neither [query] nor [more] does nothing:
    no statement reaches the engine, so neither [runQuery] nor [fetchMore]
    has run, no message is posted, and the handle is as it was. *)
Theorem onMessage_ignores_other_kinds
    {Db : Type} `{Database Db} (db : Db) (e : WebviewMessage) :
  req_type e <> Some "query" ->
  req_type e <> Some "more" ->
  onMessage e db = ([], db).
Proof.
  intros Hq Hm. unfold onMessage.
  now rewrite !bool_decide_eq_false_2 by assumption.
Qed.

Lemma onMessage_ignores_other_kinds_witness :
  @onMessage nat Sample.engine
    {| req_type := Some "cancel"; req_sql := "SELECT 1"; req_limit := 10;
       req_offset := 0 |} 0 = ([], 0).
Proof.
  apply (@onMessage_ignores_other_kinds nat Sample.engine 0);
    cbn [req_type]; discriminate.
Defined.

(** C9. The first statement [runQuery] gives to the engine is [EXPLAIN], a
    line feed and the statement as it was received: it has every semicolon
    of the statement and it is not the bounded statement. *)
Theorem runQuery_explains_raw_sql
    {Db : Type} `{Database Db} (db : Db) sql limit callback :
  head (runQuery sql limit callback db).1 =
    Some (DbAll ("EXPLAIN" +:+ nl +:+ sql)) /\
  count ";" ("EXPLAIN" +:+ nl +:+ sql) = count ";" sql /\
  "EXPLAIN" +:+ nl +:+ sql <> formatSql sql limit 0.
Proof.
  split; [|split].
  - unfold runQuery. now rewrite all_unfold.
  - now rewrite !count_append.
  - intros E. symmetry in E. now apply formatSql_neq_explain in E.
Qed.

(** * Further properties of the code *)

(** ** The statement rewrite *)

Section ReplaceFacts.

Variables (c : ascii) (rep : string).

(** A string without the pattern is not changed. *)
Lemma replace_absent s : count c s = 0 -> replace s c rep = s.
Proof.
  induction s as [|d s IH]; [reflexivity|].
  cbn [count replace]. destruct (Ascii.eqb d c); [discriminate|].
  intros E. now rewrite IH.
Qed.

(** The replacement is made at the first occurrence. *)
Lemma replace_first a b :
  count c a = 0 -> replace (a +:+ String c b) c rep = a +:+ rep +:+ b.
Proof.
  induction a as [|d a IH].
  - intros _. rewrite !append_empty_l. cbn [replace].
    now rewrite Ascii.eqb_refl.
  - rewrite !append_cons. cbn [count replace].
    destruct (Ascii.eqb d c); [discriminate|].
    intros E. now rewrite IH.
Qed.

End ReplaceFacts.

Section RenderingFacts.

(** A rendered integer is made of digits and of the minus sign. *)
Lemma count_string_of_uint c d :
  c = ";"%char \/ c = " "%char ->
  count c (NilEmpty.string_of_uint d) = 0.
Proof.
  intros Hc. induction d; cbn [NilEmpty.string_of_uint count];
    try rewrite IHd; destruct Hc as [-> | ->]; reflexivity.
Qed.

Lemma count_Number_toString c n :
  c = ";"%char \/ c = " "%char -> count c (Number_toString n) = 0.
Proof.
  intros Hc. unfold Number_toString, NilZero.string_of_int.
  destruct (Z.to_int n) as [d|d].
  - destruct d; try apply (count_string_of_uint _ _ Hc).
    destruct Hc as [-> | ->]; reflexivity.
  - cbn [count].
    replace (Ascii.eqb "-" c) with false
      by (destruct Hc as [-> | ->]; reflexivity).
    destruct d; try apply (count_string_of_uint _ _ Hc).
    destruct Hc as [-> | ->]; reflexivity.
Qed.

(** Two integers with one rendering are equal. *)
Lemma Number_toString_inj n n' :
  Number_toString n = Number_toString n' -> n = n'.
Proof.
  unfold Number_toString. intros E.
  apply DecimalZ.to_int_inj.
  assert (Hnorm : forall z, Z.to_int z <> Decimal.Pos Decimal.Nil /\
                            Z.to_int z <> Decimal.Neg Decimal.Nil).
  { intros [|p|p]; split; try discriminate;
      cbn [Z.to_int]; intros [= E'];
      now apply (DecimalPos.Unsigned.to_uint_nonnil p). }
  apply (f_equal NilZero.int_of_string) in E.
  rewrite !NilZero.isi in E by apply Hnorm. now injection E.
Qed.

Lemma append_inv_head p s t : p +:+ s = p +:+ t -> s = t.
Proof.
  induction p as [|c p IH]; [easy|].
  rewrite !append_cons. intros [= E]. now apply IH.
Qed.

(** Two texts without a space, each followed by a space, split a string
    at the same place. *)
Lemma append_space_inv s s' t t' :
  count " " s = 0 -> count " " s' = 0 ->
  s +:+ String " " t = s' +:+ String " " t' -> s = s' /\ t = t'.
Proof.
  revert s'. induction s as [|c s IH]; intros [|c' s'];
    rewrite ?append_cons, ?append_empty_l; cbn [count].
  - now intros _ _ [= ->].
  - intros _ Hc [= <- _]. discriminate Hc.
  - intros Hc _ [= -> _]. discriminate Hc.
  - intros Hc Hc' [= -> E].
    destruct (Ascii.eqb c' " "); [discriminate|].
    destruct (IH s' Hc Hc' E) as [-> ->]. now split.
Qed.

End RenderingFacts.

(** X1. A statement that is not a describe one and has no semicolon is
    placed between the parentheses of the wrapper as it is. *)
Theorem formatSql_without_semicolon sql limit offset :
  startsWith (toLowerCase sql) "describe" = false ->
  count ";" sql = 0 ->
  formatSql sql limit offset =
    "SELECT * FROM (" +:+ nl +:+ sql +:+ nl
      +:+ ") LIMIT " +:+ Number_toString limit
      +:+ " OFFSET " +:+ Number_toString offset.
Proof.
  intros Hd Hc. rewrite (formatSql_wrap sql limit offset Hd).
  now rewrite (replace_absent ";" "" sql Hc).
Qed.

Lemma formatSql_without_semicolon_witness :
  formatSql "SELECT * FROM data" 5 5 =
    "SELECT * FROM (" +:+ nl +:+ "SELECT * FROM data" +:+ nl
      +:+ ") LIMIT " +:+ Number_toString 5
      +:+ " OFFSET " +:+ Number_toString 5.
Proof.
  apply (formatSql_without_semicolon "SELECT * FROM data" 5 5); reflexivity.
Defined.

(** X2. In a statement that is not a describe one, the text before the
    first semicolon and the whole text after it, later semicolons
    included, are what the wrapper holds. *)
Theorem formatSql_cuts_first_semicolon a b limit offset :
  count ";" a = 0 ->
  startsWith (toLowerCase (a +:+ ";" +:+ b)) "describe" = false ->
  formatSql (a +:+ ";" +:+ b) limit offset =
    "SELECT * FROM (" +:+ nl +:+ (a +:+ b) +:+ nl
      +:+ ") LIMIT " +:+ Number_toString limit
      +:+ " OFFSET " +:+ Number_toString offset.
Proof.
  intros Hc Hd. rewrite (formatSql_wrap _ limit offset Hd).
  change (";" +:+ b) with (String ";" b).
  now rewrite (replace_first ";" "" a b Hc), append_empty_l.
Qed.

Lemma formatSql_cuts_first_semicolon_witness :
  formatSql ("SELECT 1" +:+ ";" +:+ " SELECT 2;") 10 0 =
    "SELECT * FROM (" +:+ nl +:+ ("SELECT 1" +:+ " SELECT 2;") +:+ nl
      +:+ ") LIMIT " +:+ Number_toString 10
      +:+ " OFFSET " +:+ Number_toString 0.
Proof.
  apply (formatSql_cuts_first_semicolon "SELECT 1" " SELECT 2;" 10 0);
    reflexivity.
Defined.

(** X3. The bounded statement of a statement that is not a describe one has
    one semicolon less than the statement, and none when the statement had
    none: the wrapper and the two numbers bring no semicolon. *)
Theorem formatSql_semicolon_count sql limit offset :
  startsWith (toLowerCase sql) "describe" = false ->
  count ";" (formatSql sql limit offset) = pred (count ";" sql).
Proof.
  intros Hd. rewrite (formatSql_wrap sql limit offset Hd).
  rewrite !count_append, count_replace.
  rewrite !(count_Number_toString ";") by now left.
  change (count ";" "SELECT * FROM (") with 0.
  change (count ";" nl) with 0.
  change (count ";" ") LIMIT ") with 0.
  change (count ";" " OFFSET ") with 0.
  lia.
Qed.

Lemma formatSql_semicolon_count_witness :
  count ";" (formatSql "SELECT 1; SELECT 2;" 10 0) =
    pred (count ";" "SELECT 1; SELECT 2;").
Proof.
  apply (formatSql_semicolon_count "SELECT 1; SELECT 2;" 10 0). reflexivity.
Defined.

(** X4. For a statement that is not a describe one and limits and offsets
    that are safe integers, two pages have the same bounded statement
    exactly when they have the same limit and the same offset. *)
Theorem formatSql_paging_injective sql limit offset limit' offset' :
  isSafeInteger limit -> isSafeInteger offset ->
  isSafeInteger limit' -> isSafeInteger offset' ->
  startsWith (toLowerCase sql) "describe" = false ->
  formatSql sql limit offset = formatSql sql limit' offset' <->
  limit = limit' /\ offset = offset'.
Proof.
  intros _ _ _ _ Hd. split; [|now intros [-> ->]].
  rewrite !(formatSql_wrap sql _ _ Hd). intros E.
  do 5 apply append_inv_head in E.
  change (" OFFSET " +:+ Number_toString offset)
    with (String " " ("OFFSET " +:+ Number_toString offset)) in E.
  change (" OFFSET " +:+ Number_toString offset')
    with (String " " ("OFFSET " +:+ Number_toString offset')) in E.
  apply append_space_inv in E as [El Eo];
    try (apply count_Number_toString; now right).
  apply append_inv_head in Eo.
  split; now apply Number_toString_inj.
Qed.

Lemma formatSql_paging_injective_witness :
  isSafeInteger 10 /\ isSafeInteger 0 /\ isSafeInteger 10 /\
  isSafeInteger 10 /\
  startsWith (toLowerCase "SELECT * FROM data") "describe" = false /\
  (formatSql "SELECT * FROM data" 10 0 = formatSql "SELECT * FROM data" 10 10
   <-> (10 = 10 /\ 0 = 10)%Z).
Proof.
  repeat (split; [reflexivity|]).
  apply (formatSql_paging_injective "SELECT * FROM data" 10 0 10 10);
    reflexivity.
Defined.

(** ** Result cleaning *)

Section CleanMore.

Lemma cleanValue_idemp v : cleanValue (cleanValue v) = cleanValue v.
Proof. now destruct v. Qed.

Lemma cleanRow_idemp (row : RowData) : cleanRow (cleanRow row) = cleanRow row.
Proof.
  rewrite !cleanRow_fmap, <- map_fmap_compose.
  apply map_fmap_ext. intros k v _. apply cleanValue_idemp.
Qed.


(** A row without a bigint is a fixed point of the loop. *)
Lemma cleanRow_fixed (row : RowData) :
  (forall k n, row !! k <> Some (VBigInt n)) -> cleanRow row = row.
Proof.
  intros Hrow. apply map_eq; intros k. rewrite cleanRow_lookup.
  destruct (row !! k) as [v|] eqn:E; [|reflexivity].
  destruct v; try reflexivity. now destruct (Hrow k n).
Qed.

End CleanMore.

(** X5. Cleaning a cleaned result set changes nothing. *)
Theorem cleanResults_idempotent (results : TableData) :
  cleanResults (cleanResults results) = cleanResults results.
Proof.
  unfold cleanResults. rewrite <- list_fmap_compose.
  apply list_fmap_ext. intros i row _. apply cleanRow_idemp.
Qed.


(** X7. The result sets cleaning leaves as they are are those without a
    bigint cell. *)
Theorem cleanResults_fixed_iff (results : TableData) :
  cleanResults results = results <-> ~ has_bigint results.
Proof.
  split.
  - intros E Hb. apply (cleanResults_no_bigint results). now rewrite E.
  - intros Hb. unfold cleanResults.
    induction results as [|row results IH]; [reflexivity|].
    rewrite fmap_cons. f_equal.
    + apply cleanRow_fixed. intros k n Hk. apply Hb.
      exists row, k, n. split; [apply list_elem_of_here | assumption].
    + apply IH. intros (row' & k & n & Hin & Hk). apply Hb.
      exists row', k, n. split; [now apply list_elem_of_further | assumption].
Qed.

(** ** The document operations and the provider *)

Section ProviderFacts.

Context {Db : Type} `{Database Db}.


Lemma statements_app evs1 evs2 :
  statements (evs1 ++ evs2) = statements evs1 ++ statements evs2.
Proof. apply omap_app. Qed.

Lemma andThen_unfold (a b : @action Db) db :
  andThen a b db = ((a db).1 ++ (b (a db).2).1, (b (a db).2).2).
Proof.
  unfold andThen. destruct (a db) as [evs1 db1]. cbn [fst snd].
  now destruct (b db1).
Qed.

Lemma receive_cons e es (db : Db) :
  receive (e :: es) db =
    ((onMessage e db).1 ++ (receive es (onMessage e db).2).1,
     (receive es (onMessage e db).2).2).
Proof. cbn [receive]. apply andThen_unfold. Qed.

(** What [onMessage] does, by the case its message takes. *)
Lemma onMessage_kind e :
  @onMessage Db _ e =
    match kind e with
    | Some query => runQuery (req_sql e) (req_limit e) postMessage
    | Some more =>
        fetchMore (req_sql e) (req_limit e) (req_offset e) postMessage
    | None => skip
    end.
Proof.
  unfold onMessage, kind.
  destruct (bool_decide (req_type e = Some "query")); [reflexivity|].
  now destruct (bool_decide (req_type e = Some "more")).
Qed.


(** The statements of the two operations. *)
Lemma runQuery_statements sql limit (db : Db) :
  statements (runQuery sql limit postMessage db).1 =
    match (db_exec db ("EXPLAIN" +:+ nl +:+ sql)).1 with
    | inl _ => ["EXPLAIN" +:+ nl +:+ sql]
    | inr _ => ["EXPLAIN" +:+ nl +:+ sql; formatSql sql limit 0]
    end.
Proof.
  destruct (db_exec db ("EXPLAIN" +:+ nl +:+ sql)) as [[err|r] db1] eqn:E1.
  - now rewrite (runQuery_validation_error _ _ _ E1).
  - destruct (db_exec db1 (formatSql sql limit 0)) as [[err|res] db2] eqn:E2.
    + now rewrite (runQuery_execution_error _ _ _ E1 E2).
    + now rewrite (runQuery_success _ _ _ E1 E2).
Qed.

Lemma fetchMore_statements sql limit offset (db : Db) :
  statements (fetchMore sql limit offset postMessage db).1 =
    [formatSql sql limit offset].
Proof.
  destruct (db_exec db (formatSql sql limit offset)) as [[err|res] db1] eqn:E.
  - now rewrite (fetchMore_error _ _ _ _ E).
  - now rewrite (fetchMore_success _ _ _ _ E).
Qed.

End ProviderFacts.

(** X8. Whatever the engine answers, [runQuery] hands its callback one
    message, of kind [query], and [fetchMore] one message, of kind
    [more]. *)
Theorem one_response_per_operation
    {Db : Type} `{Database Db} (db : Db) sql limit offset :
  type <$> posted (runQuery sql limit postMessage db).1 = [query] /\
  type <$> posted (fetchMore sql limit offset postMessage db).1 = [more].
Proof.
  split.
  - destruct (runQuery_posts sql limit db) as (msg & -> & Ht & _).
    cbn. now rewrite Ht.
  - destruct (fetchMore_posts sql limit offset db) as (msg & -> & Ht & _).
    cbn. now rewrite Ht.
Qed.

(** X9. [fetchMore] gives the engine one statement, the bounded one, and
    never an explanation; [runQuery] gives it the explanation and, when the
    engine accepted it, the bounded statement of offset 0 after it, and
    nothing else. *)
Theorem statements_of_operations
    {Db : Type} `{Database Db} (db : Db) sql limit offset :
  statements (fetchMore sql limit offset postMessage db).1 =
    [formatSql sql limit offset] /\
  (("EXPLAIN" +:+ nl +:+ sql)
     ∉ statements (fetchMore sql limit offset postMessage db).1) /\
  statements (runQuery sql limit postMessage db).1 =
    match (db_exec db ("EXPLAIN" +:+ nl +:+ sql)).1 with
    | inl _ => ["EXPLAIN" +:+ nl +:+ sql]
    | inr _ => ["EXPLAIN" +:+ nl +:+ sql; formatSql sql limit 0]
    end.
Proof.
  split; [|split].
  - apply fetchMore_statements.
  - rewrite fetchMore_statements. intros Hin.
    apply list_elem_of_singleton in Hin. symmetry in Hin.
    now apply formatSql_neq_explain in Hin.
  - apply runQuery_statements.
Qed.

(** X10. [runQuery] answers with a success exactly when the engine
    accepted the explanation and then returned rows for the bounded
    statement, and the result set of the message is those rows cleaned. *)
Theorem runQuery_succeeds_iff
    {Db : Type} `{Database Db} (db : Db) sql limit (rs : TableData) :
  posted (runQuery sql limit postMessage db).1 = [succeeded query rs] <->
  exists r db1 res db2,
    db_exec db ("EXPLAIN" +:+ nl +:+ sql) = (inr r, db1) /\
    db_exec db1 (formatSql sql limit 0) = (inr res, db2) /\
    rs = cleanResults res.
Proof.
  split.
  - destruct (db_exec db ("EXPLAIN" +:+ nl +:+ sql)) as [[err|r] db1] eqn:E1.
    { rewrite (runQuery_validation_error _ _ _ E1). discriminate. }
    destruct (db_exec db1 (formatSql sql limit 0)) as [[err|res] db2] eqn:E2.
    { rewrite (runQuery_execution_error _ _ _ E1 E2). discriminate. }
    rewrite (runQuery_success _ _ _ E1 E2). intros [= <-].
    now exists r, db1, res, db2.
  - intros (r & db1 & res & db2 & E1 & E2 & ->).
    now rewrite (runQuery_success _ _ _ E1 E2).
Qed.

(** X11. When the engine accepts the explanation and then rejects the
    bounded statement, [runQuery] has given it the two statements and
    answers with one failed [query] message that carries the text of the
    second error. *)
Theorem runQuery_execution_failure
    {Db : Type} `{Database Db} (db db1 db2 : Db) sql limit r err :
  db_exec db ("EXPLAIN" +:+ nl +:+ sql) = (inr r, db1) ->
  db_exec db1 (formatSql sql limit 0) = (inl err, db2) ->
  runQuery sql limit postMessage db =
    ([DbAll ("EXPLAIN" +:+ nl +:+ sql); DbAll (formatSql sql limit 0);
      PostMessage {| type := query; success := false;
                     message := Some (err_message err);
                     results := None |}], db2).
Proof.
  intros E1 E2. now rewrite (runQuery_execution_error _ _ _ E1 E2).
Qed.

Lemma runQuery_execution_failure_witness :
  @runQuery nat Strict.engine "SELECT 1; SELECT 2;" 10 postMessage 0 =
    ([DbAll ("EXPLAIN" +:+ nl +:+ "SELECT 1; SELECT 2;");
      DbAll (formatSql "SELECT 1; SELECT 2;" 10 0);
      PostMessage (failed query Strict.error)], 2).
Proof.
  apply (@runQuery_execution_failure nat Strict.engine 0 1 2
           "SELECT 1; SELECT 2;" 10 Sample.rows Strict.error);
    reflexivity.
Defined.

(** X12. For a statement that begins with [describe], [fetchMore] gives
    the engine the statement itself whatever the limit and the offset: all
    the pages of a describe statement are one and the same request. *)
Theorem fetchMore_describe_ignores_paging
    {Db : Type} `{Database Db} (db : Db) sql limit offset limit' offset'
    callback :
  startsWith (toLowerCase sql) "describe" = true ->
  head (fetchMore sql limit offset callback db).1 = Some (DbAll sql) /\
  fetchMore sql limit offset callback db
    = fetchMore sql limit' offset' callback db.
Proof.
  intros Hd. unfold fetchMore.
  rewrite !(formatSql_describe sql _ _ Hd). split; [|reflexivity].
  now rewrite all_unfold.
Qed.

Lemma fetchMore_describe_ignores_paging_witness :
  head (@fetchMore nat Sample.engine "DESCRIBE data" 10 10 postMessage 0).1
    = Some (DbAll "DESCRIBE data") /\
  @fetchMore nat Sample.engine "DESCRIBE data" 10 10 postMessage 0
    = @fetchMore nat Sample.engine "DESCRIBE data" 10 0 postMessage 0.
Proof.
  apply (@fetchMore_describe_ignores_paging nat Sample.engine 0
           "DESCRIBE data" 10 10 10 0 postMessage).
  reflexivity.
Defined.


(** X14. The messages of another kind can be taken out of what the webview
    sent: the trace and the handle are the same without them. *)
Theorem receive_skips_other_kinds
    {Db : Type} `{Database Db} (es : list WebviewMessage) (db : Db) :
  receive es db = receive (filter (fun e => is_Some (kind e)) es) db.
Proof.
  revert db. induction es as [|e es IH]; intros db; [reflexivity|].
  rewrite filter_cons. destruct (decide (is_Some (kind e))) as [Hk|Hk].
  - rewrite !receive_cons. now rewrite IH.
  - rewrite receive_cons, onMessage_kind.
    destruct (kind e) as [k|] eqn:Ek; [now destruct Hk|].
    cbn [skip fst snd app]. rewrite <- IH. now destruct (receive es db).
Qed.

(** X15. The engine is given at least one statement and at most two for
    each message of kind [query] or [more], and none for the others. *)
Theorem receive_statement_bounds
    {Db : Type} `{Database Db} (es : list WebviewMessage) (db : Db) :
  length (omap kind es) <= length (statements (receive es db).1)
    <= 2 * length (omap kind es).
Proof.
  revert db. induction es as [|e es IH]; intros db; [cbn; lia|].
  rewrite receive_cons. cbn [fst].
  rewrite statements_app, length_app. specialize (IH (onMessage e db).2).
  rewrite onMessage_kind in IH |- *. cbn [omap list_omap].
  destruct (kind e) as [[]|]; cbn [length].
  - rewrite runQuery_statements.
    destruct (db_exec db ("EXPLAIN" +:+ nl +:+ req_sql e)).1;
      cbn [length]; lia.
  - rewrite fetchMore_statements. cbn [length]. lia.
  - cbn [skip fst snd] in IH |- *. cbn [statements omap list_omap length]. lia.
Qed.

(** ** The rounding of a bigint *)

Section RoundingFacts.

Local Open Scope Z_scope.

Lemma iter_pos_iter {A : Type} (f : A -> A) p x :
  SpecFloat.iter_pos f p x = Pos.iter f x p.
Proof.
  revert x. induction p as [p IH|p IH|]; intros x; cbn [SpecFloat.iter_pos Pos.iter].
  - now rewrite !IH, !Pos.iter_swap.
  - now rewrite !IH.
  - reflexivity.
Qed.

Lemma digits2_pos_upper m : Zpos m < 2 ^ Zpos (digits2_pos m).
Proof.
  induction m as [m IH|m IH|]; cbn [digits2_pos]; [| |easy].
  all: rewrite Pos2Z.inj_succ, Z.pow_succ_r by lia; lia.
Qed.

Lemma digits2_pos_unique m d :
  2 ^ (d - 1) <= Zpos m < 2 ^ d -> Zpos (digits2_pos m) = d.
Proof.
  intros [Hl Hu].
  pose proof (digits2_pos_lower m) as Hl'.
  pose proof (digits2_pos_upper m) as Hu'.
  assert (0 <= d).
  { destruct (Z_lt_le_dec d 0) as [Hneg|]; [|assumption].
    rewrite (Z.pow_neg_r 2 d Hneg) in Hu. lia. }
  assert (d - 1 < Zpos (digits2_pos m))
    by (apply (Z.pow_lt_mono_r_iff 2); lia).
  assert (Zpos (digits2_pos m) - 1 < d)
    by (apply (Z.pow_lt_mono_r_iff 2); lia).
  lia.
Qed.

(** One more shift doubles the distance between the multiples. *)
Lemma shr_1_located M P mrs :
  0 < P -> located M P mrs -> located M (2 * P) (shr_1 mrs).
Proof.
  destruct mrs as [m r s]. intros HP (Hm & rem & HM & Hrem & Hloc).
  cbn [shr_m shr_r shr_s] in *.
  destruct m as [|[p|p|]|p]; [| | | |lia]; cbn [shr_1]; split;
    cbn [shr_m shr_r shr_s]; try lia.
  - exists rem. destruct r, s; cbn [orb]; lia.
  - exists (P + rem). rewrite Pos2Z.inj_xI in HM.
    destruct r, s; cbn [orb]; lia.
  - exists rem. rewrite Pos2Z.inj_xO in HM.
    destruct r, s; cbn [orb]; lia.
  - exists (P + rem). destruct r, s; cbn [orb]; lia.
Qed.

Lemma iter_shr_1_located M k :
  0 <= M ->
  located M (2 ^ Zpos k)
    (Pos.iter shr_1 {| shr_m := M; shr_r := false; shr_s := false |} k).
Proof.
  intros HM.
  assert (H0 : located M 1 {| shr_m := M; shr_r := false; shr_s := false |}).
  { split; [assumption|]. exists 0. cbn [shr_m shr_r shr_s]. lia. }
  apply Pos.iter_ind.
  - now apply (shr_1_located M 1) in H0.
  - intros p a Ha. rewrite Pos2Z.inj_succ, Z.pow_succ_r by lia.
    apply shr_1_located; [|assumption]. now apply Z.pow_pos_nonneg.
Qed.

(** Rounding to the nearest multiple, ties to the even quotient, moves by
    at most the half of [P]. *)
Lemma round_located M P mrs :
  0 < P -> located M P mrs ->
  shr_m mrs
    <= round_nearest_even (shr_m mrs) (loc_of_shr_record mrs)
    <= shr_m mrs + 1 /\
  2 * Z.abs (round_nearest_even (shr_m mrs) (loc_of_shr_record mrs) * P - M)
    <= P.
Proof.
  destruct mrs as [m r s]. intros HP (Hm & rem & HM & Hrem & Hloc).
  cbn [shr_m shr_r shr_s] in *.
  destruct r, s; cbn [loc_of_shr_record round_nearest_even];
    try destruct (Z.even m); split; lia.
Qed.

(** The three shifts [binary_round_aux] can make on an integer. *)
Lemma shr_fexp_first m k :
  Zpos (digits2_pos m) - 53 = Zpos k ->
  shr_fexp 53 1024 (Zpos m) 0 loc_Exact =
    (Pos.iter shr_1 {| shr_m := Zpos m; shr_r := false; shr_s := false |} k,
     Zpos k).
Proof.
  intros Hk. unfold shr_fexp. cbn [Zdigits2 shr_record_of_loc].
  replace (fexp 53 1024 (Zpos (digits2_pos m) + 0) - 0) with (Zpos k)
    by (unfold fexp, emin; lia).
  cbn [shr]. now rewrite iter_pos_iter.
Qed.

Lemma shr_fexp_canonical q e :
  Zpos (digits2_pos q) = 53 -> -1074 <= e ->
  shr_fexp 53 1024 (Zpos q) e loc_Exact =
    ({| shr_m := Zpos q; shr_r := false; shr_s := false |}, e).
Proof.
  intros Hq He. unfold shr_fexp. cbn [Zdigits2 shr_record_of_loc].
  replace (fexp 53 1024 (Zpos (digits2_pos q) + e) - e) with 0
    by (unfold fexp, emin; lia).
  reflexivity.
Qed.

Lemma shr_fexp_carry e :
  -1074 <= e ->
  shr_fexp 53 1024 9007199254740992 e loc_Exact =
    ({| shr_m := 4503599627370496; shr_r := false; shr_s := false |}, e + 1).
Proof.
  intros He. unfold shr_fexp.
  change (Zdigits2 9007199254740992) with 54.
  replace (fexp 53 1024 (54 + e) - e) with 1 by (unfold fexp, emin; lia).
  reflexivity.
Qed.

(** Above 53 bits the integer is rounded to 53 bits, and the number is
    within the half of a unit in the last place. *)
Lemma binary_round_large s m :
  54 <= Zpos (digits2_pos m) <= 1023 ->
  exists v,
    number_is (binary_round 53 1024 s m 0) (cond_Zopp s v) /\
    2 ^ 53 * Z.abs (v - Zpos m) <= Zpos m.
Proof.
  intros Hd.
  destruct (Zpos (digits2_pos m) - 53) as [|k|k] eqn:Hk; try lia.
  assert (HP : 0 < 2 ^ Zpos k) by now apply Z.pow_pos_nonneg.
  assert (Hlow : 2 ^ 52 * 2 ^ Zpos k <= Zpos m).
  { rewrite <- Z.pow_add_r by lia.
    replace (52 + Zpos k) with (Zpos (digits2_pos m) - 1) by lia.
    apply digits2_pos_lower. }
  assert (Hupp : Zpos m < 2 ^ 53 * 2 ^ Zpos k).
  { rewrite <- Z.pow_add_r by lia.
    replace (53 + Zpos k) with (Zpos (digits2_pos m)) by lia.
    apply digits2_pos_upper. }
  unfold binary_round, shl_align.
  replace (fexp 53 1024 (Zpos (digits2_pos m) + 0) - 0) with (Zpos k)
    by (unfold fexp, emin; lia).
  replace (fexp 53 1024 (Zpos (digits2_pos m) + 0)) with (Zpos k)
    by (unfold fexp, emin; lia).
  unfold binary_round_aux. rewrite (shr_fexp_first m k Hk).
  pose proof (iter_shr_1_located (Zpos m) k ltac:(lia)) as Hloc.
  destruct (round_located _ _ _ HP Hloc) as [Hm2 Herr].
  destruct Hloc as (Hm1 & rem & HM & Hrem & _).
  set (m1 := shr_m (Pos.iter shr_1 _ k)) in *.
  set (m2 := round_nearest_even m1 _) in *.
  assert (Hm1' : 2 ^ 52 <= m1 < 2 ^ 53) by nia.
  exists (m2 * 2 ^ Zpos k). split; [|nia].
  destruct (Z.eq_dec m2 (2 ^ 53)) as [E|E].
  - change (2 ^ 53) with 9007199254740992 in E. rewrite E.
    rewrite shr_fexp_carry by lia. cbn [shr_m].
    destruct (Z.leb_spec (Zpos k + 1) (1024 - 53)); [|lia].
    cbn [number_is]. rewrite Z.max_l, Z.max_r by lia.
    rewrite Z.pow_add_r by lia. destruct s; cbn [cond_Zopp]; lia.
  - destruct m2 as [|q|q] eqn:Eq; try lia.
    rewrite shr_fexp_canonical; [|apply digits2_pos_unique; lia|lia].
    cbn [shr_m].
    destruct (Z.leb_spec (Zpos k) (1024 - 53)); [|lia].
    cbn [number_is]. rewrite Z.max_l, Z.max_r by lia.
    destruct s; cbn [cond_Zopp]; lia.
Qed.

(** Every bigint below 2^1023 in magnitude becomes a finite number, within
    a relative error of 2^-53. *)
Lemma Number_rounding n :
  Z.abs n < 2 ^ 1023 ->
  exists v, number_is (Number n) v /\ 2 ^ 53 * Z.abs (v - n) <= Z.abs n.
Proof.
  intros Hn.
  destruct (Z_le_gt_dec (Z.abs n) (2 ^ 53)) as [Hs|Hl].
  { exists n. split; [now apply Number_exact|]. lia. }
  assert (Hdig : forall m, 2 ^ 53 < Zpos m < 2 ^ 1023 ->
                           54 <= Zpos (digits2_pos m) <= 1023).
  { intros m [Hm1 Hm2].
    pose proof (digits2_pos_lower m). pose proof (digits2_pos_upper m).
    assert (53 < Zpos (digits2_pos m))
      by (apply (Z.pow_lt_mono_r_iff 2); lia).
    assert (Zpos (digits2_pos m) - 1 < 1023)
      by (apply (Z.pow_lt_mono_r_iff 2); lia).
    lia. }
  destruct n as [|m|m]; [lia| |].
  - destruct (binary_round_large false m) as (v & Hv & Herr);
      [apply Hdig; lia|].
    exists v. split; [exact Hv | lia].
  - destruct (binary_round_large true m) as (v & Hv & Herr);
      [apply Hdig; lia|].
    exists (- v). split; [exact Hv|].
    replace (- v - Zneg m) with (- (v - Zpos m)) by lia.
    rewrite Z.abs_opp. cbn [Z.abs]. lia.
Qed.

End RoundingFacts.

Lemma number_is_finite x v : number_is x v -> number_finite x = true.
Proof. now destruct x. Qed.

(** X16. A bigint cell below 2^1023 in magnitude, which every integer of
    64 or 128 bits is, is replaced by a finite number, neither an infinity
    nor a NaN, whose value is within a relative error of 2^-53 of the
    bigint. *)
Theorem cleanResults_rounding
    (results : TableData) (i : nat) (row : RowData) (key : string) (n : Z) :
  results !! i = Some row ->
  row !! key = Some (VBigInt n) ->
  (Z.abs n < 2 ^ 1023)%Z ->
  exists (row' : RowData) x v,
    cleanResults results !! i = Some row' /\
    row' !! key = Some (VNumber x) /\
    number_finite x = true /\
    number_is x v /\
    (2 ^ 53 * Z.abs (v - n) <= Z.abs n)%Z.
Proof.
  intros Hi Hk Hn.
  destruct (Number_rounding n Hn) as (v & Hv & Herr).
  exists (cleanRow row), (Number n), v. repeat split; try assumption.
  - now rewrite cleanResults_lookup, Hi.
  - now rewrite cleanRow_lookup, Hk.
  - now apply (number_is_finite _ v).
Qed.

Lemma cleanResults_rounding_witness :
  exists (row' : RowData) x v,
    cleanResults Sample.large !! 0 = Some row' /\
    row' !! "id" = Some (VNumber x) /\
    number_finite x = true /\
    number_is x v /\
    (2 ^ 53 * Z.abs (v - 9007199254740993) <= Z.abs 9007199254740993)%Z.
Proof.
  apply (cleanResults_rounding Sample.large 0
           {[ "id" := VBigInt 9007199254740993 ]} "id" 9007199254740993);
    reflexivity.
Defined.

(** ** The opening of a document *)

Lemma append_inv_tail s s' t : s +:+ t = s' +:+ t -> s = s'.
Proof.
  revert s'. induction s as [|c s IH]; intros [|c' s'];
    rewrite ?append_cons, ?append_empty_l; intros E.
  - reflexivity.
  - apply (f_equal String.length) in E.
    cbn [String.length] in E. rewrite length_append in E. lia.
  - apply (f_equal String.length) in E.
    cbn [String.length] in E. rewrite length_append in E. lia.
  - injection E as -> E. now rewrite (IH s' E).
Qed.

(** X17. A document is made over the parsed backup when a backup id is
    given and over the original resource otherwise, and the view statement
    its constructor runs is the fixed text with the path of that resource
    between the two quotes, as it is. So the path is not escaped: the
    statement has two single quotes more than the path. And two resources
    with one view statement have one path. *)
Theorem create_view_quotes (parse : string -> Uri) uri backupId :
  (create parse uri backupId).1 =
    match backupId with Some id => parse id | None => uri end /\
  (create parse uri backupId).2 =
    "CREATE VIEW data AS SELECT * FROM read_parquet('"
      +:+ fsPath (create parse uri backupId).1 +:+ "');" /\
  count "'" (create parse uri backupId).2 =
    2 + count "'" (fsPath (create parse uri backupId).1) /\
  forall uri' backupId',
    (create parse uri backupId).2 = (create parse uri' backupId').2 ->
    fsPath (create parse uri backupId).1
      = fsPath (create parse uri' backupId').1.
Proof.
  unfold create, createViewSql. cbn [fst snd].
  split; [reflexivity|]. split; [reflexivity|]. split.
  - rewrite !count_append.
    change (count "'" "CREATE VIEW data AS SELECT * FROM read_parquet('")
      with 1.
    change (count "'" "');") with 1. lia.
  - intros uri' backupId' E.
    apply append_inv_head in E. now apply append_inv_tail in E.
Qed.

(** X18. [fetchMore] makes no validation of its own: what the engine
    answers to the bounded statement is what the message carries, the text
    of the error in a failed [more] message or the rows, as they are, in a
    successful one, and the handle is the one the engine left. *)
Theorem fetchMore_outcome
    {Db : Type} `{Database Db} (db : Db) sql limit offset :
  fetchMore sql limit offset postMessage db =
    ([DbAll (formatSql sql limit offset);
      PostMessage
        match (db_exec db (formatSql sql limit offset)).1 with
        | inl err => failed more err
        | inr res => succeeded more res
        end],
     (db_exec db (formatSql sql limit offset)).2).
Proof.
  destruct (db_exec db (formatSql sql limit offset)) as [[err|res] db1] eqn:E.
  - now rewrite (fetchMore_error _ _ _ _ E).
  - now rewrite (fetchMore_success _ _ _ _ E).
Qed.
